(** * Navigation menus and user-setting actions of the ConvergedRAG web frontend

    Shallow embedding of
    - [src/web/src/layouts/next.tsx]: the [NextLayout] menu tree and its
      [selectedKey] memo, including its evaluation of the unimported
      [useLogout];
    - [src/web/src/layouts/components/header/index.tsx]: the [App] layout's
      menu tree, selection and [onSelect];
    - [src/web/src/pages/user-setting/index.tsx]: the [Sidebar] menu tree,
      [handleMenuClick] and [getSelectedKeys]; the [Header]'s profile link and
      [RagHeader]'s logo link; the user/tenant action hooks [useAddUser],
      [useHandleDeleteUser], [useHandleAgreeTenant], [useHandleQuitUser],
      [useUpdateUserStatus] and [useEditUser]; and [EditUserModal]'s form
      schema, default values and submit.

    Strings are Stdlib [string]s; [String.prototype.startsWith] is
    [String.prefix] with its arguments swapped. *)

From Stdlib Require Import String List ZArith Bool Lia.
Import ListNotations.
Open Scope string_scope.
#[local] Set Warnings "-register-all".

(** ** Menu trees *)

Module Menu.

(** An antd menu item as the code builds it: a key, a label (the i18n key
    passed to [t]) and optional children. Icons and the [type] field are not
    modelled. *)
Inductive MenuNode : Type :=
| mkNode (key : string) (label : string) (children : list MenuNode).

Definition key (n : MenuNode) : string := match n with mkNode k _ _ => k end.
Definition label (n : MenuNode) : string := match n with mkNode _ l _ => l end.
Definition children (n : MenuNode) : list MenuNode :=
  match n with mkNode _ _ cs => cs end.

(** [s.startsWith(pre)]. *)
Definition startsWith (s pre : string) : bool := String.prefix pre s.

(** Every key of a tree, parents before their children, in menu order. *)
Fixpoint nodeKeys (n : MenuNode) : list string :=
  match n with
  | mkNode k _ cs =>
      k :: (fix go (l : list MenuNode) : list string :=
              match l with
              | [] => []
              | c :: r => (nodeKeys c ++ go r)%list
              end) cs
  end.

Definition treeKeys (items : list MenuNode) : list string :=
  flat_map nodeKeys items.

(** The selection result handed to antd's [Menu]. *)
Record SelectionResult : Type := mkSelection {
  selectedKeys : list string;
  openKeys : list string
}.

(** [menuItems.find((item) => pathname.startsWith(item.key))?.key || dflt]
    (next.tsx lines 79-82; the same expression with [Routes.Home] as default
    in the header variant). The [|| dflt] also replaces an empty key. *)
Definition selectedKey (dflt : string) (menuItems : list MenuNode)
    (pathname : string) : string :=
  match find (fun item => startsWith pathname (key item)) menuItems with
  | Some item => if String.eqb (key item) "" then dflt else key item
  | None => dflt
  end.

(** [menuItems] of [NextLayout] (next.tsx lines 22-73). *)
Definition nextMenuItems : list MenuNode := [
  mkNode "/knowledge" "knowledgeBase" [];
  mkNode "/chat" "chat" [];
  mkNode "/search" "search" [];
  mkNode "/flow" "flow" [];
  mkNode "/file" "fileManager" [];
  mkNode "/user" "userManager" [
    mkNode "/user/profile" "profile" [];
    mkNode "/user/password" "password" [];
    mkNode "/user/team" "team" [];
    mkNode "/user/locale" "setting" [];
    mkNode "/user/logout" "logout" [] ];
  mkNode "/system" "systemManager" [
    mkNode "/system/settingmodel" "modelProvider" [];
    mkNode "/system/sysinfo" "systeminfo" [];
    mkNode "/system/api" "api" [] ]
].

(** A JavaScript evaluation: a value, or a thrown exception. *)
Inductive JsResult (A : Type) : Type :=
| JsOk (a : A)
| JsThrow (err : string).
Arguments JsOk {A} a.
Arguments JsThrow {A} err.

(** The identifier [useLogout] as next.tsx evaluates it: the file imports no
    binding of that name, so evaluating it throws. *)
Definition nextUseLogout : JsResult unit :=
  JsThrow "ReferenceError: useLogout is not defined".

(** The [selectedKey] memo of [NextLayout] (next.tsx lines 75-83): the
    unused [basePath] cannot throw; then [useLogout()] is evaluated, and only
    after it the return expression. *)
Definition nextSelectedKey (pathname : string) : JsResult string :=
  match nextUseLogout with
  | JsThrow e => JsThrow e
  | JsOk _ => JsOk (selectedKey "/knowledge" nextMenuItems pathname)
  end.

(** The selection [NextLayout] renders: [selectedKeys={[selectedKey]}]; no
    [openKeys] prop is passed. A throw in the memo aborts the render. *)
Definition nextResolve (pathname : string) : JsResult SelectionResult :=
  match nextSelectedKey pathname with
  | JsOk k => JsOk (mkSelection [k] [])
  | JsThrow e => JsThrow e
  end.

(** [menuItems] of the [App] layout of header/index.tsx (lines 255-305). *)
Definition appMenuItems : list MenuNode := [
  mkNode "/knowledge" "knowledgeBase" [];
  mkNode "/chat" "chat" [];
  mkNode "/search" "search" [];
  mkNode "/flow" "flow" [];
  mkNode "/file" "fileManager" [];
  mkNode "/user" "userManager" [
    mkNode "/user/profile" "profile" [];
    mkNode "/user/password" "password" [];
    mkNode "/user/team" "team" [];
    mkNode "/user/logout" "logout" [] ];
  mkNode "/system" "systemManager" [
    mkNode "/system/settingmodel" "modelProvider" [];
    mkNode "/system/sysinfo" "systeminfo" [];
    mkNode "/system/api" "api" [] ]
].

(** The selection the [App] layout renders (header/index.tsx lines 307-312,
    333-334): [selectedKeys={[selectedKey]}] with the default ['/knowledge'];
    no [openKeys] prop is passed. Its [useLogout] is imported (line 238). *)
Definition appResolve (pathname : string) : SelectionResult :=
  mkSelection [selectedKey "/knowledge" appMenuItems pathname] [].

(** What a menu selection of the [App] layout does. *)
Inductive LayoutEvent : Type :=
| Navigated (path : string)
| LoggedOut.

(** [onSelect] of the [App] layout's [Menu] (header/index.tsx lines 336-343). *)
Definition appOnSelect (k : string) (events : list LayoutEvent) : list LayoutEvent :=
  if String.eqb k "/user/logout" then (events ++ [LoggedOut])%list
  else (events ++ [Navigated k])%list.

(** [getItem(label, key, icon, children, type)] of the [Sidebar]. *)
Definition getItem (lbl : string) (k : string) (cs : list MenuNode) : MenuNode :=
  mkNode k lbl cs.

Definition mainMenuItems : list MenuNode := [
  getItem "knowledgeBase" "/datasets" [];
  getItem "chat" "/next-chats" [];
  getItem "search" "/next-searches" [];
  getItem "flow" "/agents" [];
  getItem "fileManager" "/files" []
].

Definition systemManagementItems : list MenuNode := [
  getItem "sidebar.dataSource" "/user-setting/data-source" [];
  getItem "sidebar.modelProvider" "/user-setting/model" [];
  getItem "sidebar.mcp" "/user-setting/mcp" [];
  getItem "sidebar.api" "/user-setting/api" [];
  getItem "sidebar.sysinfo" "/user-setting/system" []
].

Definition userManagementItems : list MenuNode := [
  getItem "sidebar.profile" "/user-setting/profile" [];
  getItem "sidebar.teamManagement" "/user-setting/team" []
].

(** [items] of the [Sidebar] (index.tsx lines 522-526). *)
Definition sidebarItems : list MenuNode :=
  mainMenuItems ++ [
    getItem "sidebar.systemManagement" "" systemManagementItems;
    getItem "sidebar.userManagement" "" userManagementItems ].

(** [defaultOpenKeys] of the Sidebar's [Menu] (index.tsx line 599). *)
Definition sidebarDefaultOpenKeys : list string := ["system"; "user"].

(** [navigate] of [useNavigateWithFromState]: the router records a
    navigation to the given path. *)
Definition navigate (path : string) (history : list string) : list string :=
  (history ++ [path])%list.

(** [handleMenuClick] (index.tsx lines 528-532). *)
Definition handleMenuClick (k : string) (history : list string) : list string :=
  if startsWith k "/" then navigate k history else history.

(** [items.forEach(item => { if (guard(item)) keys.push(...pushed(item)); })]
    over an accumulator [keys]. The [typeof item === 'object' && 'key' in item]
    test holds for every [getItem] result and is left out. *)
Definition pushEach (guard : MenuNode -> bool) (pushed : MenuNode -> list string)
    (items : list MenuNode) (keys : list string) : list string :=
  fold_left (fun acc item => if guard item then (acc ++ pushed item)%list else acc)
    items keys.

(** [getSelectedKeys] of the [Sidebar] (index.tsx lines 535-576). *)
Definition getSelectedKeys (pathname : string) : list string :=
  let keys := pushEach
    (fun item => startsWith pathname (key item) && negb (String.eqb (key item) "/"))
    (fun item => [key item]) mainMenuItems [] in
  let keys := if String.eqb pathname "/" || String.eqb pathname "/home"
              then (keys ++ ["/"])%list else keys in
  let keys := pushEach (fun item => startsWith pathname (key item))
    (fun item => ["system"; key item]) systemManagementItems keys in
  pushEach (fun item => startsWith pathname (key item))
    (fun item => ["user"; key item]) userManagementItems keys.

(** The keys of the Sidebar's entries that [handleMenuClick] navigates to. *)
Definition sidebarLeafKeys : list string :=
  filter (fun k => startsWith k "/") (treeKeys sidebarItems).

(** [handleProfileClick] of the [Header] (index.tsx lines 377-379). *)
Definition handleProfileClick (history : list string) : list string :=
  navigate "/user-setting/profile" history.

(** [handleLogoClick] of [RagHeader] (index.tsx lines 642-644). *)
Definition ragHeaderLogoClick (history : list string) : list string :=
  navigate "/" history.

End Menu.

(** ** User and tenant actions *)

Module UserSetting.

(** [TenantRole] of [../constants]. *)
Inductive TenantRole : Type := Owner | Normal.

(** Requests to the remote user/tenant API. [deleteTenantUser] takes an
    object whose [tenantId] field is absent in [useHandleDeleteUser]. *)
Inductive RemoteCall : Type :=
| AddTenantUser (email : string)
| DeleteTenantUser (userId : string) (tenantId : option string)
| AgreeTenant (tenantId : string)
| UpdateUserStatus (email : string) (status : string).

(** How a remote promise settles: resolved with the API result code
    ([0] is success, anything else a failure), or rejected. *)
Inductive Outcome : Type :=
| Resolved (code : Z)
| Rejected (error : string).

Record EditingUser : Type := mkEditingUser {
  user_id : string;
  nickname : string;
  email : string;
  role : TenantRole
}.

(** The [onOk] callbacks handed to [showDeleteConfirm]. *)
Inductive ConfirmAction : Type :=
| OkDeleteUser (userId : string)
| OkQuitUser (userId : string) (tenantId : string).

(** Client state touched by the hooks: the remote requests issued so far,
    the modal flags of [useSetModalState], the [editingUser] buffer, the
    confirmation dialog on screen, the react-query keys invalidated, the
    developer console, the user-visible notifications, and the id of the
    logged-in user ([useFetchUserInfo().data.id]). *)
Record State : Type := mkState {
  calls : list RemoteCall;
  addingTenantModalVisible : bool;
  editingUserModalVisible : bool;
  editingUser : option EditingUser;
  pendingConfirm : option ConfirmAction;
  invalidated : list (list string);
  consoleLog : list string;
  notices : list string;
  currentUserId : string
}.

Definition set_calls (v : list RemoteCall) (s : State) : State :=
  mkState v (addingTenantModalVisible s) (editingUserModalVisible s)
    (editingUser s) (pendingConfirm s) (invalidated s) (consoleLog s)
    (notices s) (currentUserId s).
Definition set_addingTenantModalVisible (v : bool) (s : State) : State :=
  mkState (calls s) v (editingUserModalVisible s)
    (editingUser s) (pendingConfirm s) (invalidated s) (consoleLog s)
    (notices s) (currentUserId s).
Definition set_editingUserModalVisible (v : bool) (s : State) : State :=
  mkState (calls s) (addingTenantModalVisible s) v
    (editingUser s) (pendingConfirm s) (invalidated s) (consoleLog s)
    (notices s) (currentUserId s).
Definition set_editingUser (v : option EditingUser) (s : State) : State :=
  mkState (calls s) (addingTenantModalVisible s) (editingUserModalVisible s)
    v (pendingConfirm s) (invalidated s) (consoleLog s)
    (notices s) (currentUserId s).
Definition set_pendingConfirm (v : option ConfirmAction) (s : State) : State :=
  mkState (calls s) (addingTenantModalVisible s) (editingUserModalVisible s)
    (editingUser s) v (invalidated s) (consoleLog s)
    (notices s) (currentUserId s).
Definition set_invalidated (v : list (list string)) (s : State) : State :=
  mkState (calls s) (addingTenantModalVisible s) (editingUserModalVisible s)
    (editingUser s) (pendingConfirm s) v (consoleLog s)
    (notices s) (currentUserId s).
Definition set_consoleLog (v : list string) (s : State) : State :=
  mkState (calls s) (addingTenantModalVisible s) (editingUserModalVisible s)
    (editingUser s) (pendingConfirm s) (invalidated s) v
    (notices s) (currentUserId s).

(** A state monad for the hooks' handlers. *)
Definition M (A : Type) : Type := State -> A * State.

Definition ret {A} (a : A) : M A := fun s => (a, s).
Definition bind {A B} (m : M A) (k : A -> M B) : M B :=
  fun s => let (a, s') := m s in k a s'.
Definition gets {A} (f : State -> A) : M A := fun s => (f s, s).
Definition modify (f : State -> State) : M unit := fun s => (tt, f s).

Notation "x <- m ;; k" := (bind m (fun x => k))
  (at level 61, m at next level, right associativity).
Notation "m ;; k" := (bind m (fun _ : unit => k))
  (at level 61, right associativity).

(** The state after running a handler. *)
Definition exec {A} (m : M A) (s : State) : State := snd (m s).

Section Hooks.

(** How the server answers each request. *)
Variable server : RemoteCall -> Outcome.

(** Issue a remote request and await its settlement. The request hooks
    [useAddTenantUser], [useDeleteTenantUser] and [useAgreeTenant] are not in
    the sample; only the request they send and its settlement are modelled,
    not any cache or message effect of theirs. *)
Definition remote (c : RemoteCall) : M Outcome :=
  fun s => (server c, set_calls (app (calls s) [c]) s).

Definition addTenantUser (email : string) : M Outcome :=
  remote (AddTenantUser email).
Definition deleteTenantUser (userId : string) (tenantId : option string)
    : M Outcome :=
  remote (DeleteTenantUser userId tenantId).
Definition agreeTenant (tenantId : string) : M Outcome :=
  remote (AgreeTenant tenantId).

(** [useSetModalState] for the invite dialog. *)
Definition showAddingTenantModal : M unit :=
  modify (set_addingTenantModalVisible true).
Definition hideAddingTenantModal : M unit :=
  modify (set_addingTenantModalVisible false).

(** [handleAddUserOk] of [useAddUser] (index.tsx lines 40-48): await
    [addTenantUser(email)] and hide the dialog when the code is [0]. A
    rejected promise propagates out of the handler before the check. *)
Definition handleAddUserOk (email : string) : M unit :=
  r <- addTenantUser email ;;
  match r with
  | Resolved code => if Z.eqb code 0 then hideAddingTenantModal else ret tt
  | Rejected _ => ret tt
  end.

(** Modelled from the spec: [useShowDeleteConfirm] of [@/hooks/common-hooks]
    (not in the sample). It presents an explicit confirmation step; [onOk]
    runs only when the user confirms, and cancelling has no remote effect. *)
Definition showDeleteConfirm (onOk : ConfirmAction) : M unit :=
  modify (set_pendingConfirm (Some onOk)).

(** The bodies of the [onOk] callbacks (index.tsx lines 66-71, 102-104). *)
Definition runOnOk (a : ConfirmAction) : M unit :=
  match a with
  | OkDeleteUser userId =>
      code <- deleteTenantUser userId None ;;
      ret tt
  | OkQuitUser userId tenantId =>
      _r <- deleteTenantUser userId (Some tenantId) ;;
      ret tt
  end.

(** Modelled from the spec: the user confirms the dialog opened by
    [showDeleteConfirm]; it closes and [onOk] runs. *)
Definition confirmOk : M unit :=
  a <- gets pendingConfirm ;;
  match a with
  | Some onOk => modify (set_pendingConfirm None) ;; runOnOk onOk
  | None => ret tt
  end.

(** Modelled from the spec: the user cancels the dialog; it closes. *)
Definition confirmCancel : M unit :=
  modify (set_pendingConfirm None).

(** [handleDeleteTenantUser(userId)()] of [useHandleDeleteUser]
    (index.tsx lines 63-73). *)
Definition handleDeleteTenantUser (userId : string) : M unit :=
  showDeleteConfirm (OkDeleteUser userId).

(** [handleQuitTenantUser(userId, tenantId)()] of [useHandleQuitUser]. *)
Definition handleQuitTenantUser (userId tenantId : string) : M unit :=
  showDeleteConfirm (OkQuitUser userId tenantId).

(** [handleAgree(tenantId, isAgree)()] of [useHandleAgreeTenant]
    (index.tsx lines 83-89); the promises are not awaited. *)
Definition handleAgree (tenantId : string) (isAgree : bool) : M unit :=
  if isAgree then
    _r <- agreeTenant tenantId ;; ret tt
  else
    uid <- gets currentUserId ;;
    _r <- deleteTenantUser uid (Some tenantId) ;;
    ret tt.

(** [mutation.mutate({email, isActive})] of [useUpdateUserStatus]
    (index.tsx lines 116-127): react-query runs [onSuccess] when the
    promise of [updateUserStatus] resolves and [onError] when it rejects.
    Modelled from the spec: [updateUserStatus] of [@/services/admin-service]
    (not in the sample) resolves with the API result code. *)
Definition updateUserStatusMutate (email : string) (isActive : bool) : M unit :=
  r <- remote (UpdateUserStatus email (if isActive then "on" else "off")) ;;
  match r with
  | Resolved _ =>
      modify (fun s => set_invalidated (app (invalidated s) [["listTenantUser"]]) s)
  | Rejected err =>
      modify (fun s => set_consoleLog
                (app (consoleLog s) ["Failed to update user status: " ++ err]) s)
  end.

(** [handleEditUser] of [useEditUser] (index.tsx lines 145-151). *)
Definition handleEditUser (userData : EditingUser) : M unit :=
  modify (set_editingUser (Some userData)) ;;
  modify (set_editingUserModalVisible true).

(** [handleEditUserOk] of [useEditUser] (index.tsx lines 153-163): no API
    call, a [console.log], then the dialog is hidden and the buffer cleared. *)
Definition handleEditUserOk (nick : string) (r : TenantRole) : M unit :=
  u <- gets editingUser ;;
  modify (fun s => set_consoleLog (app (consoleLog s)
    ["Would update user: " ++ match u with Some x => user_id x | None => "undefined" end]) s) ;;
  modify (set_editingUserModalVisible false) ;;
  modify (set_editingUser None).

End Hooks.

(** [defaultValues] of [EditUserModal]'s form (index.tsx lines 224-227).
    [userData?.nickname || ''] is the nickname itself or [''];
    [userData?.role || TenantRole.Normal] keeps the role, whose enum values
    are non-empty strings. *)
Definition editDefaultValues (userData : option EditingUser) : string * TenantRole :=
  (match userData with Some u => nickname u | None => "" end,
   match userData with Some u => role u | None => Normal end).

(** [formSchema] (index.tsx lines 215-218): [nickname] needs at least one
    character; [role] is a [TenantRole] by its type here. The result lists
    the fields reported through [FormMessage]. *)
Definition editFormErrors (nick : string) : list string :=
  if Nat.ltb (String.length nick) 1 then ["nickname"] else [].

(** [form.handleSubmit(handleOk)] with [onOk] bound to [handleEditUserOk]:
    the handler runs only when the schema accepts the data. *)
Definition submitEditForm (nick : string) (r : TenantRole) : M (list string) :=
  match editFormErrors nick with
  | [] => handleEditUserOk nick r ;; ret []
  | errs => ret errs
  end.

End UserSetting.

(** ** Properties *)

Module MenuFacts.
Import Menu.

Lemma find_app_skip {A} (f : A -> bool) (pre l : list A) :
  (forall x, In x pre -> f x = false) -> find f (pre ++ l) = find f l.
Proof.
  induction pre as [|a pre IH]; intros Hall; simpl; [reflexivity|].
  rewrite (Hall a (or_introl eq_refl)).
  apply IH. intros x Hx. apply Hall. now right.
Qed.

Lemma selectedKey_cons (dflt : string) (n : MenuNode) (items : list MenuNode)
    (p : string) :
  selectedKey dflt (n :: items) p =
    if startsWith p (key n) then (if String.eqb (key n) "" then dflt else key n)
    else selectedKey dflt items p.
Proof.
  unfold selectedKey. simpl. destruct (startsWith p (key n)); reflexivity.
Qed.

(** C1 (as stated, refuted). Both layouts whose trees hold ['/user'] and
    ['/user/profile'] fail it on ['/user/profile/edit']: [NextLayout] throws
    before producing any selection, and the [App] layout selects ['/user'],
    not ['/user/profile'], and opens nothing. *)
Lemma C1_counterexample :
  In "/user" (treeKeys nextMenuItems) /\
  In "/user/profile" (treeKeys nextMenuItems) /\
  (forall r, nextResolve "/user/profile/edit" <> JsOk r) /\
  In "/user" (treeKeys appMenuItems) /\
  In "/user/profile" (treeKeys appMenuItems) /\
  appResolve "/user/profile/edit" = mkSelection ["/user"] [] /\
  ~ In "/user/profile" (selectedKeys (appResolve "/user/profile/edit")) /\
  ~ In "/user" (openKeys (appResolve "/user/profile/edit")).
Proof.
  split; [vm_compute; intuition discriminate|].
  split; [vm_compute; intuition discriminate|].
  split; [intros r; discriminate|].
  vm_compute. intuition discriminate.
Qed.

(** C1 (amended). The layouts' selection expression
    [menuItems.find(item => pathname.startsWith(item.key))?.key || dflt]
    yields the key of the first top-level item whose key is a prefix of the
    path (when that key is non-empty); it never looks at children; the [App]
    layout passes no [openKeys], and every path under ['/user/'] selects
    ['/user'] there, as the same expression does on [NextLayout]'s tree. *)
Theorem C1_first_top_level_match (dflt p : string) (pre post : list MenuNode)
  (it : MenuNode)
  (Hpre : forall x, In x pre -> startsWith p (key x) = false)
  (Hit : startsWith p (key it) = true) (Hne : key it <> "") :
  selectedKey dflt (pre ++ it :: post) p = key it /\
  (forall items q, selectedKey dflt items q =
     selectedKey dflt (map (fun n => mkNode (key n) (label n) []) items) q) /\
  (forall q, openKeys (appResolve q) = []) /\
  (forall suffix, appResolve ("/user/" ++ suffix) = mkSelection ["/user"] [] /\
     selectedKey "/knowledge" nextMenuItems ("/user/" ++ suffix) = "/user").
Proof.
  split; [|split; [|split; [reflexivity|]]].
  - unfold selectedKey. rewrite (find_app_skip _ pre _ Hpre). simpl.
    rewrite Hit. destruct (String.eqb_spec (key it) "") as [E|_];
      [contradiction|reflexivity].
  - intros items q. induction items as [|n items IH]; [reflexivity|].
    simpl map. rewrite !selectedKey_cons, IH. destruct n; reflexivity.
  - intros suffix. split; reflexivity.
Qed.

Lemma C1_witness :
  selectedKey "/knowledge" appMenuItems "/user/profile/edit" = "/user".
Proof.
  exact (proj1 (C1_first_top_level_match "/knowledge" "/user/profile/edit"
    (firstn 5 appMenuItems) (skipn 6 appMenuItems) (nth 5 appMenuItems (mkNode "" "" []))
    ltac:(intros x Hx; simpl in Hx; repeat (destruct Hx as [<-|Hx]; [reflexivity|]);
          destruct Hx)
    eq_refl ltac:(discriminate))).
Defined.

(** C8 (code bug). [NextLayout] never reaches its ['/knowledge'] fallback:
    on every path, ['/unknown'] included, the memo throws at the unimported
    [useLogout]. The fallback expression itself would give ['/knowledge'],
    the first top-level key, as the sibling [App] layout, which imports
    [useLogout], does. *)
Theorem C8_next_throws_before_default :
  nextResolve "/unknown" = JsThrow "ReferenceError: useLogout is not defined" /\
  (forall p, exists e, nextResolve p = JsThrow e) /\
  selectedKey "/knowledge" nextMenuItems "/unknown" = "/knowledge" /\
  option_map key (hd_error nextMenuItems) = Some "/knowledge" /\
  appResolve "/unknown" = mkSelection ["/knowledge"] [].
Proof.
  split; [reflexivity|]. split; [intros p; eexists; reflexivity|].
  repeat split; reflexivity.
Qed.

(** C9 (code bug). The Sidebar's tree holds the key [""] twice (both group
    headers), so its keys are not unique, while [defaultOpenKeys] and
    [getSelectedKeys] address those groups as ['system'] and ['user']. *)
Theorem C9_sidebar_duplicate_keys :
  ~ NoDup (treeKeys sidebarItems) /\
  count_occ string_dec (treeKeys sidebarItems) "" = 2 /\
  (forall k, In k sidebarDefaultOpenKeys -> ~ In k (treeKeys sidebarItems)).
Proof.
  split; [|split].
  - intros H.
    pose proof (proj1 (NoDup_count_occ string_dec _) H "") as Hc.
    vm_compute in Hc. lia.
  - vm_compute. reflexivity.
  - intros k Hk. simpl in Hk.
    destruct Hk as [<-|[<-|[]]]; vm_compute; intuition discriminate.
Qed.

(** C10. A click navigates exactly when the key starts with ['/']; the empty
    key of a group header leaves the navigation history unchanged. *)
Theorem C10_menu_click_navigates_iff_slash (k : string) (history : list string) :
  handleMenuClick k history =
    (history ++ (if startsWith k "/" then [k] else []))%list /\
  (handleMenuClick k history <> history <-> startsWith k "/" = true) /\
  handleMenuClick "" history = history.
Proof.
  unfold handleMenuClick, navigate.
  destruct (startsWith k "/") eqn:E.
  - split; [reflexivity|]. split; [|reflexivity].
    split; [reflexivity|]. intros _ Heq.
    apply (f_equal (@length string)) in Heq.
    rewrite length_app in Heq. simpl in Heq.
    rewrite Nat.add_1_r in Heq. exact (Nat.neq_succ_diag_l _ Heq).
  - split; [now rewrite app_nil_r|]. split; [|reflexivity].
    split; [intros H; now exfalso|discriminate].
Qed.

End MenuFacts.

Module UserSettingFacts.
Import UserSetting.

(** A logged-in session with the invite dialog open and nothing issued. *)
Definition initState : State :=
  mkState [] true false None None [] [] [] "u1".

(** C2 (as stated, refuted). Submitting the empty email to
    [handleAddUserOk] issues the remote call [addTenantUser("")]. *)
Lemma C2_counterexample :
  calls (exec (handleAddUserOk (fun _ => Rejected "invalid email") "") initState)
    = [AddTenantUser ""] /\
  calls (exec (handleAddUserOk (fun _ => Rejected "invalid email") "") initState) <> [].
Proof.
  split; [reflexivity|discriminate].
Qed.

(** C2 (amended). [handleAddUserOk] does no local validation: for every
    email, the empty string included, it issues exactly one
    [addTenantUser(email)] call, whatever the server answers. *)
Theorem C2_add_user_no_local_validation
  (server : RemoteCall -> Outcome) (s : State) (email : string) :
  calls (exec (handleAddUserOk server email) s) = (calls s ++ [AddTenantUser email])%list.
Proof.
  unfold exec, handleAddUserOk, addTenantUser, remote, bind. simpl.
  destruct (server (AddTenantUser email)) as [code|err]; simpl;
    [destruct (Z.eqb code 0)|]; reflexivity.
Qed.

(** C3. With the invite dialog open, result code [0] of [addTenantUser]
    closes it and any other code leaves it open. *)
Theorem C3_invite_dialog_closes_iff_code_zero
  (server : RemoteCall -> Outcome) (s : State) (email : string) (code : Z)
  (Hopen : addingTenantModalVisible s = true)
  (Hcode : server (AddTenantUser email) = Resolved code) :
  addingTenantModalVisible (exec (handleAddUserOk server email) s)
    = negb (Z.eqb code 0).
Proof.
  unfold exec, handleAddUserOk, addTenantUser, remote, bind. simpl.
  rewrite Hcode. destruct (Z.eqb code 0); simpl; [reflexivity|exact Hopen].
Qed.

Lemma C3_witness :
  addingTenantModalVisible
    (exec (handleAddUserOk (fun _ => Resolved 0%Z) "a@b.com") initState) = false /\
  addingTenantModalVisible
    (exec (handleAddUserOk (fun _ => Resolved 102%Z) "a@b.com") initState) = true.
Proof.
  split.
  - exact (C3_invite_dialog_closes_iff_code_zero (fun _ => Resolved 0%Z)
             initState "a@b.com" 0%Z eq_refl eq_refl).
  - exact (C3_invite_dialog_closes_iff_code_zero (fun _ => Resolved 102%Z)
             initState "a@b.com" 102%Z eq_refl eq_refl).
Defined.

(** C4. [handleDeleteTenantUser(userId)] only opens the confirmation: no
    call is issued before it is confirmed, cancelling issues none, and
    confirming issues exactly one [deleteTenantUser({userId})]. *)
Theorem C4_delete_user_confirmation_gated
  (server : RemoteCall -> Outcome) (s : State) (userId : string) :
  let s1 := exec (handleDeleteTenantUser userId) s in
  calls s1 = calls s /\
  calls (exec confirmCancel s1) = calls s /\
  calls (exec (confirmOk server) s1) = (calls s ++ [DeleteTenantUser userId None])%list.
Proof.
  simpl. split; [reflexivity|]. split; [reflexivity|].
  unfold exec, confirmOk, gets, modify, bind, runOnOk, deleteTenantUser,
    remote, ret. simpl. reflexivity.
Qed.

(** C5 (code bug). [updateUserStatus] answering with the failure code
    [101] still resolves the promise, so [onSuccess] invalidates the user
    list: the hook never checks the result code, unlike [handleAddUserOk]. *)
Lemma C5_counterexample :
  invalidated (exec (updateUserStatusMutate (fun _ => Resolved 101%Z) "a@b.com" true)
                 initState) = [["listTenantUser"]].
Proof.
  reflexivity.
Qed.

(** C6. Accepting issues exactly [agreeTenant(tenantId)]; rejecting issues
    exactly one [deleteTenantUser] with that tenant and the current user's
    id. *)
Theorem C6_agree_or_reject
  (server : RemoteCall -> Outcome) (s : State) (tenantId : string) :
  calls (exec (handleAgree server tenantId true) s) =
    (calls s ++ [AgreeTenant tenantId])%list /\
  calls (exec (handleAgree server tenantId false) s) =
    (calls s ++ [DeleteTenantUser (currentUserId s) (Some tenantId)])%list.
Proof.
  split; reflexivity.
Qed.

(** C7 (as stated, refuted). After opening and confirming the edit dialog
    nothing reaches the user: no notification, the dialog closed as on a
    success; only the developer console records the missing API. *)
Lemma C7_counterexample :
  let s1 := exec (handleEditUser (mkEditingUser "u2" "bob" "bob@x.com" Normal)) initState in
  let s2 := exec (handleEditUserOk "bobby" Owner) s1 in
  calls s2 = [] /\ editingUserModalVisible s2 = false /\
  notices s2 = [] /\ consoleLog s2 = ["Would update user: u2"].
Proof.
  repeat split; reflexivity.
Qed.

(** C7 (amended). Confirming [EditUser] issues no remote call, closes the
    edit dialog and clears the buffer; the missing API is only written to
    the developer console, with no user-visible notification. *)
Theorem C7_edit_user_no_call
  (s : State) (nick : string) (r : TenantRole) :
  let s' := exec (handleEditUserOk nick r) s in
  calls s' = calls s /\ editingUserModalVisible s' = false /\
  editingUser s' = None /\ notices s' = notices s /\
  exists msg, consoleLog s' = (consoleLog s ++ [msg])%list.
Proof.
  simpl. repeat split. eexists. reflexivity.
Qed.

End UserSettingFacts.

(** ** Further properties of the menus *)

Module MenuExtra.
Import Menu.

Lemma pushEach_flat_map (g : MenuNode -> bool) (f : MenuNode -> list string)
    (items : list MenuNode) (keys : list string) :
  pushEach g f items keys =
    (keys ++ flat_map (fun it => if g it then f it else []) items)%list.
Proof.
  unfold pushEach. revert keys.
  induction items as [|it items IH]; intros keys; simpl.
  - now rewrite app_nil_r.
  - rewrite IH. destruct (g it); simpl; [now rewrite app_assoc|reflexivity].
Qed.

Lemma in_of_existsb (k : string) (l : list string) :
  existsb (String.eqb k) l = true -> In k l.
Proof.
  induction l as [|a l IH]; simpl; [discriminate|].
  intros H. apply orb_prop in H. destruct H as [H|H].
  - left. symmetry. now apply String.eqb_eq.
  - right. now apply IH.
Qed.

(** Two prefixes of one string are prefixes of each other. *)
Lemma prefix_comparable (a b p : string) :
  String.prefix a p = true -> String.prefix b p = true ->
  String.prefix a b = true \/ String.prefix b a = true.
Proof.
  revert b p. induction a as [|x a IH]; intros b p Ha Hb;
    [left; now destruct b|].
  destruct b as [|y b]; [now right|].
  destruct p as [|z p]; [discriminate|].
  simpl in Ha, Hb.
  destruct (Ascii.ascii_dec x z) as [->|]; [|discriminate].
  destruct (Ascii.ascii_dec y z) as [->|]; [|discriminate].
  simpl. destruct (Ascii.ascii_dec z z) as [_|n]; [|now contradiction n].
  exact (IH b p Ha Hb).
Qed.

Lemma sidebarLeafKeys_eq : sidebarLeafKeys = [
  "/datasets"; "/next-chats"; "/next-searches"; "/agents"; "/files";
  "/user-setting/data-source"; "/user-setting/model"; "/user-setting/mcp";
  "/user-setting/api"; "/user-setting/system";
  "/user-setting/profile"; "/user-setting/team"].
Proof. vm_compute. reflexivity. Qed.

(** Every element of [getSelectedKeys p] that is a Sidebar entry key is a
    prefix of [p]. *)
Lemma in_guarded_flat_map (g : MenuNode -> bool) (f : MenuNode -> list string)
    (items : list MenuNode) (k : string) :
  In k (flat_map (fun it => if g it then f it else []) items) ->
  exists it, In it items /\ g it = true /\ In k (f it).
Proof.
  intros H. apply in_flat_map in H. destruct H as [it [Hin Hit]].
  exists it. destruct (g it); [now split|destruct Hit].
Qed.

Lemma selected_leaf_is_prefix (p k : string) :
  In k (getSelectedKeys p) -> In k sidebarLeafKeys -> startsWith p k = true.
Proof.
  rewrite sidebarLeafKeys_eq. intros Hk Hleaf.
  assert (Hnot : forall x, x = "/" \/ x = "system" \/ x = "user" ->
                 In x [ "/datasets"; "/next-chats"; "/next-searches"; "/agents";
                   "/files"; "/user-setting/data-source"; "/user-setting/model";
                   "/user-setting/mcp"; "/user-setting/api"; "/user-setting/system";
                   "/user-setting/profile"; "/user-setting/team"] -> False).
  { intros x [ -> | [ -> | -> ] ] Hx; simpl in Hx; intuition discriminate. }
  unfold getSelectedKeys in Hk. cbv zeta in Hk. rewrite !pushEach_flat_map in Hk.
  destruct (String.eqb p "/" || String.eqb p "/home");
    rewrite !in_app_iff in Hk;
    repeat match goal with H : _ \/ _ |- _ => destruct H as [Hk|Hk] end;
    match type of Hk with
    | In _ [] => destruct Hk
    | In _ ["/"] =>
        destruct Hk as [<-|[]]; exfalso; exact (Hnot "/" (or_introl eq_refl) Hleaf)
    | In _ (flat_map _ _) =>
        apply in_guarded_flat_map in Hk; destruct Hk as [it [_ [G Hit]]];
        simpl in Hit
    end.
  all: try (destruct Hit as [<-|[]]; now apply andb_prop in G).
  all: destruct Hit as [<-|[<-|[]]]; [exfalso; refine (Hnot _ _ Hleaf); tauto|exact G].
Qed.

Lemma leaf_keys_prefix_free (k1 k2 : string) :
  In k1 sidebarLeafKeys -> In k2 sidebarLeafKeys ->
  String.prefix k1 k2 = true -> k1 = k2.
Proof.
  rewrite sidebarLeafKeys_eq. intros H1 H2.
  simpl in H1, H2.
  repeat (destruct H1 as [<-|H1]); [..|destruct H1];
  repeat (destruct H2 as [<-|H2]); try destruct H2;
  first [reflexivity | intros H; vm_compute in H; discriminate].
Qed.

(** Clicking any Sidebar entry navigates to its key, and on that route the
    Sidebar marks the entry as selected. *)
Theorem sidebar_click_then_selected (k : string) (history : list string)
  (Hk : In k sidebarLeafKeys) :
  handleMenuClick k history = (history ++ [k])%list /\ In k (getSelectedKeys k).
Proof.
  rewrite sidebarLeafKeys_eq in Hk. simpl in Hk.
  repeat (destruct Hk as [<-|Hk]); try destruct Hk;
  (split; [reflexivity|apply in_of_existsb; vm_compute; reflexivity]).
Qed.

Lemma sidebar_click_then_selected_witness :
  In "/user-setting/team" sidebarLeafKeys /\
  In "/user-setting/team" (getSelectedKeys "/user-setting/team").
Proof.
  assert (H : In "/user-setting/team" sidebarLeafKeys).
  { apply in_of_existsb. vm_compute. reflexivity. }
  split; [exact H|].
  exact (proj2 (sidebar_click_then_selected "/user-setting/team" [] H)).
Defined.

(** For every path the Sidebar selects at most one of its entries: no two
    distinct entry keys are ever selected together. *)
Theorem sidebar_at_most_one_entry (p k1 k2 : string)
  (H1 : In k1 (getSelectedKeys p)) (H2 : In k2 (getSelectedKeys p))
  (L1 : In k1 sidebarLeafKeys) (L2 : In k2 sidebarLeafKeys) :
  k1 = k2.
Proof.
  pose proof (selected_leaf_is_prefix p k1 H1 L1) as P1.
  pose proof (selected_leaf_is_prefix p k2 H2 L2) as P2.
  destruct (prefix_comparable k1 k2 p P1 P2) as [P|P].
  - exact (leaf_keys_prefix_free k1 k2 L1 L2 P).
  - symmetry. exact (leaf_keys_prefix_free k2 k1 L2 L1 P).
Qed.

Lemma sidebar_at_most_one_entry_witness :
  In "/user-setting/model" (getSelectedKeys "/user-setting/model/openai") /\
  "/user-setting/model" = "/user-setting/model".
Proof.
  assert (H : In "/user-setting/model" (getSelectedKeys "/user-setting/model/openai")).
  { apply in_of_existsb. vm_compute. reflexivity. }
  assert (L : In "/user-setting/model" sidebarLeafKeys).
  { apply in_of_existsb. vm_compute. reflexivity. }
  split; [exact H|].
  exact (sidebar_at_most_one_entry "/user-setting/model/openai"
           "/user-setting/model" "/user-setting/model" H H L L).
Defined.

(** The Sidebar selects the key ['/'] exactly on the routes ['/'] and
    ['/home']; the [key !== '/'] guard and the entries' keys keep it out
    everywhere else. On those two routes ['/'] is the whole selection and is
    the key of no Sidebar entry, so [RagHeader]'s logo click, which
    navigates to ['/'], leaves no entry highlighted. *)
Theorem sidebar_home_selection (p : string) (history : list string) :
  (In "/" (getSelectedKeys p) <-> p = "/" \/ p = "/home") /\
  getSelectedKeys "/" = ["/"] /\ getSelectedKeys "/home" = ["/"] /\
  ~ In "/" (treeKeys sidebarItems) /\
  ragHeaderLogoClick history = (history ++ ["/"])%list.
Proof.
  split; [|split; [reflexivity|split; [reflexivity|split; [|reflexivity]]]].
  2: { vm_compute. intuition discriminate. }
  split.
  - intros Hk.
    unfold getSelectedKeys in Hk. cbv zeta in Hk. rewrite !pushEach_flat_map in Hk.
    destruct (String.eqb p "/" || String.eqb p "/home") eqn:Hh.
    + apply orb_prop in Hh. destruct Hh as [Hh|Hh];
        apply String.eqb_eq in Hh; [now left|now right].
    + rewrite !in_app_iff in Hk.
      repeat match goal with H : _ \/ _ |- _ => destruct H as [Hk|Hk] end;
      try destruct Hk;
      apply in_guarded_flat_map in Hk; destruct Hk as [it [Hin [G Hit]]];
      simpl in Hin, Hit;
      repeat (destruct Hin as [<-|Hin]); try destruct Hin;
      simpl in Hit; intuition discriminate.
  - intros [-> | ->]; apply in_of_existsb; reflexivity.
Qed.

(** The Header's profile link navigates to ['/user-setting/profile']; on that
    route and every route below it the Sidebar selects exactly the profile
    entry and its group marker ['user']. *)
Theorem profile_click_selects_profile (history : list string) (suffix : string) :
  handleProfileClick history = (history ++ ["/user-setting/profile"])%list /\
  getSelectedKeys ("/user-setting/profile" ++ suffix) = ["user"; "/user-setting/profile"].
Proof.
  split; [reflexivity|].
  destruct suffix; reflexivity.
Qed.

(** Selecting an entry of the [App] layout's menu other than
    ['/user/logout'], a top-level item or a child, navigates to the entry's
    key, and on that route the menu selects the top-level item the entry
    belongs to; selecting ['/user/logout'] logs out and navigates nowhere. *)
Theorem app_select_then_resolve (top c : MenuNode) (events : list LayoutEvent)
  (Htop : In top appMenuItems) (Hc : c = top \/ In c (children top))
  (Hlogout : key c <> "/user/logout") :
  appOnSelect (key c) events = (events ++ [Navigated (key c)])%list /\
  appResolve (key c) = mkSelection [key top] [] /\
  appOnSelect "/user/logout" events = (events ++ [LoggedOut])%list.
Proof.
  split; [|split; [|reflexivity]].
  - unfold appOnSelect. destruct (String.eqb_spec (key c) "/user/logout");
      [contradiction|reflexivity].
  - simpl in Htop.
    repeat (destruct Htop as [<-|Htop]); try destruct Htop;
    destruct Hc as [->|Hc]; try reflexivity;
    simpl in Hc; repeat (destruct Hc as [<-|Hc]); try destruct Hc; reflexivity.
Qed.

Lemma app_select_then_resolve_witness :
  appOnSelect "/user/team" [] = [Navigated "/user/team"] /\
  appResolve "/user/team" = mkSelection ["/user"] [].
Proof.
  pose proof (app_select_then_resolve (nth 5 appMenuItems (mkNode "" "" []))
    (mkNode "/user/team" "team" []) []
    ltac:(simpl; tauto) ltac:(simpl; tauto) ltac:(discriminate)) as H.
  split; [exact (proj1 H)|exact (proj1 (proj2 H))].
Defined.

End MenuExtra.

(** ** Further properties of the user-setting hooks *)

Module UserSettingExtra.
Import UserSetting.

(** Quitting a tenant only opens the confirmation: nothing is issued before
    it is confirmed or when it is cancelled, and confirming issues exactly one
    [deleteTenantUser({userId, tenantId})] carrying both ids. *)
Theorem quit_tenant_confirmation_gated
  (server : RemoteCall -> Outcome) (s : State) (userId tenantId : string) :
  let s1 := exec (handleQuitTenantUser userId tenantId) s in
  calls s1 = calls s /\
  calls (exec confirmCancel s1) = calls s /\
  calls (exec (confirmOk server) s1) =
    (calls s ++ [DeleteTenantUser userId (Some tenantId)])%list.
Proof.
  simpl. split; [reflexivity|]. split; reflexivity.
Qed.

(** Opening the invite dialog and submitting: the dialog ends closed exactly
    when [addTenantUser] resolves with code [0]; a nonzero code or a rejected
    request leaves it open. *)
Theorem invite_open_submit_closes_iff_zero
  (server : RemoteCall -> Outcome) (s : State) (email : string) :
  addingTenantModalVisible
    (exec (showAddingTenantModal ;; handleAddUserOk server email) s) =
  match server (AddTenantUser email) with
  | Resolved code => negb (Z.eqb code 0)
  | Rejected _ => true
  end.
Proof.
  cbv [exec bind showAddingTenantModal modify handleAddUserOk
    addTenantUser remote hideAddingTenantModal ret]. simpl.
  destruct (server (AddTenantUser email)) as [code|err]; simpl; [|reflexivity].
  destruct (Z.eqb code 0); reflexivity.
Qed.

(** [SetUserActive] issues exactly one [updateUserStatus] request, with
    status ['on'] for an activation and ['off'] otherwise; its [onError]
    writes a rejection to the developer console, and a resolved request
    writes nothing there. *)
Theorem update_status_call_and_errors
  (server : RemoteCall -> Outcome) (s : State) (email : string) (isActive : bool) :
  let s' := exec (updateUserStatusMutate server email isActive) s in
  calls s' = (calls s ++ [UpdateUserStatus email (if isActive then "on" else "off")])%list /\
  consoleLog s' = app (consoleLog s)
    match server (UpdateUserStatus email (if isActive then "on" else "off")) with
    | Resolved _ => []
    | Rejected err => ["Failed to update user status: " ++ err]
    end.
Proof.
  unfold exec, updateUserStatusMutate, remote, bind, modify. simpl.
  destruct (server _); simpl; repeat split; try reflexivity.
  now rewrite app_nil_r.
Qed.

(** The edit form's schema gates the handler: with an empty nickname the
    submit changes nothing (the dialog and the buffer stay), otherwise it
    closes the dialog and clears the buffer. No remote request either way. *)
Theorem edit_form_gate (s : State) (nick : string) (r : TenantRole) :
  let s' := exec (submitEditForm nick r) s in
  calls s' = calls s /\ notices s' = notices s /\
  (nick = "" -> s' = s /\ fst (submitEditForm nick r s) = ["nickname"]) /\
  (nick <> "" -> editingUserModalVisible s' = false /\ editingUser s' = None).
Proof.
  destruct nick as [|c rest]; simpl.
  - split; [reflexivity|]. split; [reflexivity|]. split.
    + intros _. split; reflexivity.
    + intros Hne. now contradiction Hne.
  - split; [reflexivity|]. split; [reflexivity|]. split.
    + discriminate.
    + intros _. split; reflexivity.
Qed.

Lemma edit_form_gate_witness :
  exec (submitEditForm "" Normal) UserSettingFacts.initState = UserSettingFacts.initState /\
  editingUserModalVisible (exec (submitEditForm "bob" Normal)
    (set_editingUserModalVisible true UserSettingFacts.initState)) = false.
Proof.
  split.
  - exact (proj1 (proj1 (proj2 (proj2
      (edit_form_gate UserSettingFacts.initState "" Normal))) eq_refl)).
  - exact (proj1 (proj2 (proj2 (proj2
      (edit_form_gate (set_editingUserModalVisible true UserSettingFacts.initState)
         "bob" Normal))) ltac:(discriminate))).
Defined.

(** Opening the edit dialog for a user and submitting the prefilled form
    unchanged: it is rejected, leaving dialog and buffer in place, exactly when
    the user's nickname is empty; otherwise the dialog closes, the buffer is
    cleared and the console records that user's id. Without user data the
    prefilled nickname is empty and the submit is always rejected. *)
Theorem edit_prefilled_round_trip (s : State) (u : EditingUser) :
  let s' := exec (handleEditUser u ;;
                  submitEditForm (fst (editDefaultValues (Some u)))
                                 (snd (editDefaultValues (Some u)))) s in
  calls s' = calls s /\
  (nickname u = "" -> editingUserModalVisible s' = true /\ editingUser s' = Some u) /\
  (nickname u <> "" -> editingUserModalVisible s' = false /\ editingUser s' = None /\
     consoleLog s' = app (consoleLog s) ["Would update user: " ++ user_id u]) /\
  submitEditForm (fst (editDefaultValues None)) (snd (editDefaultValues None)) s =
    (["nickname"], s).
Proof.
  destruct u as [uid nick em rl]; simpl.
  destruct nick as [|c rest]; simpl.
  - split; [reflexivity|]. split; [|split; [|reflexivity]].
    + intros _. split; reflexivity.
    + intros Hne. now contradiction Hne.
  - split; [reflexivity|]. split; [|split; [|reflexivity]].
    + discriminate.
    + intros _. split; [reflexivity|split; reflexivity].
Qed.

Lemma edit_prefilled_round_trip_witness :
  consoleLog (exec (handleEditUser (mkEditingUser "u7" "ann" "ann@x.com" Owner) ;;
                    submitEditForm "ann" Owner) UserSettingFacts.initState)
    = ["Would update user: u7"].
Proof.
  exact (proj2 (proj2 (proj1 (proj2 (proj2
    (edit_prefilled_round_trip UserSettingFacts.initState
       (mkEditingUser "u7" "ann" "ann@x.com" Owner)))) ltac:(discriminate)))).
Defined.

End UserSettingExtra.
